(** * Revive Print Kiosk (raspberry_pi_kiosk.py): a shallow embedding

    The kiosk's core logic, as written in [PrintKiosk]:
    - [start_printing]: collecting the print settings from the preview screen;
    - [do_print]: building the CUPS options, submitting the job and polling
      its state;
    - [receive_file]: the Flask upload endpoint and its handoff to the UI;
    - [cleanup]: removal of the current file at exit;
    - [show_preview], [prev_page], [next_page]: the preview page index.

    Python dicts of strings are association lists in insertion order, the
    file system is an association list from paths to contents, and the
    callbacks scheduled with [root.after] or performed on the spooler are
    recorded in a trace. *)

From Stdlib Require Import String Ascii List ZArith NArith Lia Bool.
Import ListNotations.
Open Scope string_scope.

(* ------------------------------------------------------------------ *)
(** ** Python helpers *)

(** A Python [dict] of strings: insertion-ordered, assignment overwrites. *)
Definition dict := list (string * string).

Fixpoint dict_set (d : dict) (k v : string) : dict :=
  match d with
  | [] => [(k, v)]
  | (k', v') :: t => if String.eqb k k' then (k, v) :: t else (k', v') :: dict_set t k v
  end.

Fixpoint dict_get (d : dict) (k : string) : option string :=
  match d with
  | [] => None
  | (k', v) :: t => if String.eqb k k' then Some v else dict_get t k
  end.

(** [str(n)] for a natural number, in decimal. *)
Fixpoint digits_aux (fuel : nat) (n : N) (acc : string) : string :=
  match fuel with
  | O => acc
  | S f =>
      let acc' := String (ascii_of_N (48 + N.modulo n 10)) acc in
      if (n <? 10)%N then acc' else digits_aux f (N.div n 10) acc'
  end.

Definition str_of_N (n : N) : string := digits_aux (S (N.size_nat n)) n "".

(** [s.split(',')] *)
Fixpoint split_comma (s : string) : list string :=
  match s with
  | EmptyString => [""]
  | String c rest =>
      if Ascii.eqb c ","%char then "" :: split_comma rest
      else match split_comma rest with
           | [] => [String c ""]
           | w :: ws => String c w :: ws
           end
  end.

(* ------------------------------------------------------------------ *)
(** ** Print settings: [start_printing] *)

Record print_settings := {
  page_range : string;
  orientation : string;
  duplex : string
}.

(** The text [show_preview] inserts into the custom range entry. *)
Definition custom_range_placeholder : string := "e.g. 1-3,5".

(** The page range collected by [start_printing] from the radio variable
    [page_range_var] and the entry [custom_range]. *)
Definition collect_page_range (page_range_var custom_range : string) : string :=
  if String.eqb page_range_var "custom" then
    if String.eqb custom_range custom_range_placeholder then "all" else custom_range
  else "all".

Definition start_printing_settings
  (page_range_var custom_range orientation_var duplex_var : string) : print_settings :=
  {| page_range := collect_page_range page_range_var custom_range;
     orientation := orientation_var;
     duplex := duplex_var |}.

(* ------------------------------------------------------------------ *)
(** ** CUPS options: first half of [do_print] *)

Definition cups_options (s : print_settings) : dict :=
  let options := [] in
  let options :=
    if negb (String.eqb (page_range s) "all")
    then dict_set options "page-ranges" (page_range s) else options in
  let options :=
    if String.eqb (orientation s) "landscape"
    then dict_set options "orientation-requested" "4"
    else dict_set options "orientation-requested" "3" in
  let options :=
    if String.eqb (duplex s) "long" then dict_set options "sides" "two-sided-long-edge"
    else if String.eqb (duplex s) "short" then dict_set options "sides" "two-sided-short-edge"
    else dict_set options "sides" "one-sided" in
  options.

(** What the program does with a page-range expression: the value of the
    [page-ranges] option sent to the spooler, if any. *)
Definition code_page_ranges (page_range_var custom_range : string) : option string :=
  dict_get (cups_options (start_printing_settings page_range_var custom_range "portrait" "none"))
    "page-ranges".

(* ------------------------------------------------------------------ *)
(** ** Submission and polling: [do_print] *)

Definition PRINTER_NAME : string := "HP_LaserJet_M208dw".

(** Job states reported by CUPS, the values of the IPP attribute
    [job-state] (RFC 8011, 5.3.7). *)
Module Ipp.
Definition pending : nat := 3.
Definition pending_held : nat := 4.
Definition processing : nat := 5.
Definition processing_stopped : nat := 6.
Definition canceled : nat := 7.
Definition aborted : nat := 8.
Definition completed : nat := 9.
End Ipp.

(** The result of [cups_conn.getJobs()]: job id to [job-state], or the
    message of the exception it raised. *)
Definition jobs := list (nat * nat).

Fixpoint jobs_get (js : jobs) (id : nat) : option nat :=
  match js with
  | [] => None
  | (id', st) :: t => if Nat.eqb id id' then Some st else jobs_get t id
  end.

(** A CUPS connection: the answer of [printFile] (a job id, or the message
    of the exception it raises) and the successive answers of [getJobs]. *)
Record spooler := {
  sp_print_file : string -> string -> string -> dict -> string + nat;
  sp_get_jobs : list (string + jobs)
}.

(** The effects of [do_print], in order: the callbacks it schedules with
    [root.after] and its calls to [printFile] (the emoji of the progress
    labels are left out of their texts). *)
Inductive event :=
| SetStatus (text : string)
| SetProgress (text : string)
| PrintFile (printer file title : string) (options : dict)
| ShowSuccess
| ShowError (title msg : string)
| ShowWelcome.

(** How the [while True] loop that monitors the job is left. *)
Inductive loop_exit :=
| LoopBreak
| LoopRaise (msg : string)
| LoopRunning.

(** The monitoring loop, run over the answers of [getJobs]; when they run
    out the loop is still polling. *)
Fixpoint monitor (job_id : nat) (polls : list (string + jobs)) : loop_exit :=
  match polls with
  | [] => LoopRunning
  | inl e :: _ => LoopRaise e
  | inr js :: rest =>
      match jobs_get js job_id with
      | None => LoopBreak
      | Some job_state =>
          if Nat.eqb job_state 9 then LoopBreak
          else if Nat.eqb job_state 8 then LoopRaise "Print job cancelled"
          else monitor job_id rest
      end
  end.

(** The [except] branch of [do_print]. *)
Definition print_error (msg : string) : list event :=
  [ShowError "Print Error" msg; ShowWelcome].

Definition do_print (cups_conn : option spooler) (s : print_settings)
  (current_file : string) : list event :=
  [SetStatus "Sending to printer..."; SetProgress "Communicating with HP LaserJet"] ++
  match cups_conn with
  | None => print_error "CUPS connection not available"
  | Some conn =>
      let options := cups_options s in
      PrintFile PRINTER_NAME current_file "Print Job" options ::
      match sp_print_file conn PRINTER_NAME current_file "Print Job" options with
      | inl e => print_error e
      | inr job_id =>
          [SetStatus "Printing..."; SetProgress ("Job ID: " ++ str_of_N (N.of_nat job_id))] ++
          match monitor job_id (sp_get_jobs conn) with
          | LoopBreak => [ShowSuccess]
          | LoopRaise e => print_error e
          | LoopRunning => []
          end
      end
  end.

(** The number of jobs submitted in a trace. *)
Definition is_print_file (e : event) : bool :=
  match e with PrintFile _ _ _ _ => true | _ => false end.

Definition submissions (tr : list event) : nat := length (filter is_print_file tr).

(** Whether a trace reaches the success screen, or the error box. *)
Definition is_success (e : event) : bool :=
  match e with ShowSuccess => true | _ => false end.

Definition is_error (e : event) : bool :=
  match e with ShowError _ _ => true | _ => false end.

Definition reaches_success (tr : list event) : bool := existsb is_success tr.

Definition reaches_error (tr : list event) : bool := existsb is_error tr.

(** A spooler accepting every job under id [job_id]. *)
Definition accepting (job_id : nat) (polls : list (string + jobs)) : spooler :=
  {| sp_print_file := fun _ _ _ _ => inr job_id; sp_get_jobs := polls |}.

(* ------------------------------------------------------------------ *)
(** ** The upload endpoint: [receive_file] and [cleanup] *)

(** A file part of the multipart body ([werkzeug.FileStorage]). *)
Record file_part := {
  fp_filename : string;
  fp_data : string
}.

(** [request.files]: field name to file part; [request.files[k]] is the
    first part under [k]. *)
Definition files := list (string * file_part).

Fixpoint files_get (fs : files) (k : string) : option file_part :=
  match fs with
  | [] => None
  | (k', f) :: t => if String.eqb k k' then Some f else files_get t k
  end.

(** The file system: path to contents. *)
Definition fsys := list (string * string).

Fixpoint fs_write (fs : fsys) (path data : string) : fsys :=
  match fs with
  | [] => [(path, data)]
  | (p, d) :: t => if String.eqb path p then (path, data) :: t else (p, d) :: fs_write t path data
  end.

Definition fs_remove (fs : fsys) (path : string) : fsys :=
  filter (fun e => negb (String.eqb (fst e) path)) fs.

Definition fs_exists (fs : fsys) (path : string) : bool :=
  existsb (fun e => String.eqb (fst e) path) fs.

Definition fs_read (fs : fsys) (path : string) : option string :=
  option_map snd (find (fun e => String.eqb (fst e) path) fs).

(** [os.path.join(a, b)] for a relative [b]. *)
Definition ends_with_slash (s : string) : bool :=
  match String.get (String.length s - 1) s with
  | Some c => Ascii.eqb c "/"%char
  | None => false
  end.

Definition path_join (a b : string) : string :=
  if String.eqb a "" then b
  else if ends_with_slash a then a ++ b else a ++ "/" ++ b.

(** The callbacks the endpoint schedules on the UI thread. *)
Inductive ui_call :=
| ShowFileConfirmation (filename : string) (filesize : nat).

(** The part of the kiosk state the endpoint touches. *)
Record kiosk := {
  k_fs : fsys;
  k_current_file : option string;
  k_after : list ui_call
}.

(** The environment of one request: [tempfile.gettempdir()], the value of
    [time.time()] in milliseconds, and the exception [file.save] raises,
    if any. *)
Record req_env := {
  temp_dir : string;
  now_ms : N;
  save_error : option string
}.

(** The JSON response and its HTTP status. *)
Record response := {
  status : nat;
  success : bool;
  body : string
}.

(** [f"print_{int(time.time())}_{file.filename}"] joined to the temp dir. *)
Definition stored_path (e : req_env) (filename : string) : string :=
  path_join (temp_dir e) ("print_" ++ str_of_N (N.div (now_ms e) 1000) ++ "_" ++ filename).

Definition receive_file (e : req_env) (req : files) (k : kiosk) : response * kiosk :=
  match files_get req "file" with
  | None => ({| status := 400; success := false; body := "No file provided" |}, k)
  | Some file =>
      if String.eqb (fp_filename file) "" then
        ({| status := 400; success := false; body := "Empty filename" |}, k)
      else
        let filepath := stored_path e (fp_filename file) in
        match save_error e with
        | Some msg => ({| status := 500; success := false; body := msg |}, k)
        | None =>
            let fs' := fs_write (k_fs k) filepath (fp_data file) in
            let filesize := String.length (fp_data file) in
            ({| status := 200; success := true; body := fp_filename file |},
             {| k_fs := fs';
                k_current_file := Some filepath;
                k_after := k_after k ++ [ShowFileConfirmation (fp_filename file) filesize] |})
        end
  end.

Definition cleanup (k : kiosk) : kiosk :=
  match k_current_file k with
  | Some p =>
      if negb (String.eqb p "") && fs_exists (k_fs k) p
      then {| k_fs := fs_remove (k_fs k) p; k_current_file := k_current_file k;
              k_after := k_after k |}
      else k
  | None => k
  end.

(** A run of uploads, each with its own environment. *)
Fixpoint receive_all (reqs : list (req_env * files)) (k : kiosk) : kiosk :=
  match reqs with
  | [] => k
  | (e, r) :: rest => receive_all rest (snd (receive_file e r k))
  end.

Definition kiosk_init : kiosk := {| k_fs := []; k_current_file := None; k_after := [] |}.

Definition upload (filename data : string) : files :=
  [("file", {| fp_filename := filename; fp_data := data |})].

Definition env_at (ms : N) : req_env :=
  {| temp_dir := "/tmp"; now_ms := ms; save_error := None |}.

(* ------------------------------------------------------------------ *)
(** ** The preview page index: [show_preview], [prev_page], [next_page] *)

(** [len(self.preview_images)] and [self.current_page]. *)
Record preview := {
  preview_len : nat;
  current_page : Z
}.

(** [show_preview] given the result of [convert_from_path]: the number of
    page images, or [None] when the file is missing or cannot be
    converted (the error box and [show_welcome] leave the index alone). *)
Definition show_preview (converted : option nat) (p : preview) : preview :=
  match converted with
  | Some n => {| preview_len := n; current_page := 0 |}
  | None => p
  end.

Definition prev_page (p : preview) : preview :=
  if (0 <? current_page p)%Z
  then {| preview_len := preview_len p; current_page := current_page p - 1 |}
  else p.

Definition next_page (p : preview) : preview :=
  if (current_page p <? Z.of_nat (preview_len p) - 1)%Z
  then {| preview_len := preview_len p; current_page := current_page p + 1 |}
  else p.

Inductive preview_op :=
| OpShowPreview (converted : option nat)
| OpPrev
| OpNext.

Definition preview_step (o : preview_op) (p : preview) : preview :=
  match o with
  | OpShowPreview c => show_preview c p
  | OpPrev => prev_page p
  | OpNext => next_page p
  end.

Fixpoint preview_run (os : list preview_op) (p : preview) : preview :=
  match os with
  | [] => p
  | o :: rest => preview_run rest (preview_step o p)
  end.

(** Documents with at least one page. *)
Definition nonempty_doc (o : preview_op) : Prop :=
  match o with
  | OpShowPreview (Some n) => 1 <= n
  | _ => True
  end.

Definition page_index_ok (p : preview) : Prop :=
  (1 <= preview_len p)%nat /\ (0 <= current_page p <= Z.of_nat (preview_len p) - 1)%Z.

(* ------------------------------------------------------------------ *)
(** ** Drawing the current page: [update_preview] *)

Definition str_of_Z (z : Z) : string :=
  if (z <? 0)%Z then "-" ++ str_of_N (Z.to_N (- z)) else str_of_N (Z.to_N z).

(** [self.preview_images[i]] with Python's indexing: negative indices count
    from the end, anything else out of range raises [IndexError]. *)
Definition py_index (len : nat) (i : Z) : option nat :=
  if (0 <=? i)%Z && (i <? Z.of_nat len)%Z then Some (Z.to_nat i)
  else if (- Z.of_nat len <=? i)%Z && (i <? 0)%Z then Some (Z.to_nat (Z.of_nat len + i))
  else None.

(** What [update_preview] shows: the index of the image drawn, the page
    label and the states of the Previous and Next buttons. *)
Inductive preview_update :=
| NoImages
| PreviewIndexError
| Shown (image : nat) (page_label : string) (prev_enabled next_enabled : bool).

Definition update_preview (p : preview) : preview_update :=
  if Nat.eqb (preview_len p) 0 then NoImages
  else match py_index (preview_len p) (current_page p) with
       | None => PreviewIndexError
       | Some i =>
           Shown i
             ("Page " ++ str_of_Z (current_page p + 1) ++ " of "
                ++ str_of_N (N.of_nat (preview_len p)))
             (0 <? current_page p)%Z
             (current_page p <? Z.of_nat (preview_len p) - 1)%Z
       end.

(* ------------------------------------------------------------------ *)
(** ** Easter eggs: [check_konami] and [secret_click] *)







(** One call of [secret_click] on [self.secret_clicks]: the new count and
    whether party mode was triggered. *)
Definition secret_click (secret_clicks : nat) : nat * bool :=
  let secret_clicks := S secret_clicks in
  if Nat.leb 10 secret_clicks then (0, true) else (secret_clicks, false).

Fixpoint clicks_run (n : nat) (secret_clicks : nat) : nat * nat :=
  match n with
  | O => (secret_clicks, 0)
  | S m =>
      let '(c, t) := secret_click secret_clicks in
      let '(c', k) := clicks_run m c in
      (c', (if t then 1 else 0) + k)
  end.

(* ------------------------------------------------------------------ *)
(** ** The success screen countdown: [show_success] and [do_countdown] *)

Record countdown_state := {
  current_screen : string;
  countdown : nat
}.

(** What one call of [do_countdown] does: return at once, update the label
    and reschedule itself, or call [show_welcome]. *)
Inductive tick :=
| TickStop
| TickAgain (label : string)
| TickWelcome.

Definition do_countdown (s : countdown_state) : countdown_state * tick :=
  if negb (String.eqb (current_screen s) "success") then (s, TickStop)
  else match countdown s with
       | S c =>
           ({| current_screen := current_screen s; countdown := c |},
            TickAgain ("Returning to home in " ++ str_of_N (N.of_nat c) ++ " seconds..."))
       | O => ({| current_screen := "welcome"; countdown := 0 |}, TickWelcome)
       end.

(** The chain of [root.after(1000, self.do_countdown)] calls, for at most
    [fuel] calls. *)
Fixpoint countdown_chain (fuel : nat) (s : countdown_state) : countdown_state * list tick :=
  match fuel with
  | O => (s, [])
  | S f =>
      let '(s', t) := do_countdown s in
      match t with
      | TickAgain _ => let '(s'', ts) := countdown_chain f s' in (s'', t :: ts)
      | _ => (s', [t])
      end
  end.

(** The state [show_success] leaves before its first [do_countdown]. *)
Definition show_success_countdown : countdown_state :=
  {| current_screen := "success"; countdown := 5 |}.

(* ================================================================== *)
(** * Properties *)

Lemma fs_exists_write (fs : fsys) (p d q : string) :
  fs_exists (fs_write fs p d) q = fs_exists fs q || String.eqb q p.
Proof.
  induction fs as [|[p' d'] t IH]; simpl.
  - rewrite Bool.orb_false_r. apply String.eqb_sym.
  - destruct (String.eqb p p') eqn:Hp; simpl.
    + apply String.eqb_eq in Hp. subst p'.
      rewrite (String.eqb_sym q p).
      destruct (String.eqb p q); simpl; [reflexivity|].
      rewrite Bool.orb_false_r. reflexivity.
    + rewrite IH. rewrite Bool.orb_assoc. reflexivity.
Qed.

Lemma fs_exists_remove (fs : fsys) (p q : string) :
  fs_exists (fs_remove fs p) q = fs_exists fs q && negb (String.eqb q p).
Proof.
  induction fs as [|[p' d'] t IH]; simpl.
  - reflexivity.
  - destruct (String.eqb p' p) eqn:Hp; simpl.
    + apply String.eqb_eq in Hp. subst p'. rewrite IH.
      rewrite (String.eqb_sym q p).
      destruct (String.eqb p q); simpl;
        rewrite ?Bool.andb_false_r, ?Bool.andb_true_r; reflexivity.
    + rewrite IH.
      destruct (String.eqb p' q) eqn:Hq; simpl.
      * apply String.eqb_eq in Hq. subst p'. rewrite Hp. reflexivity.
      * reflexivity.
Qed.

Lemma page_ranges_of_settings (var text orient dup : string) :
  dict_get (cups_options (start_printing_settings var text orient dup)) "page-ranges" =
  if String.eqb var "custom" && negb (String.eqb text custom_range_placeholder)
     && negb (String.eqb text "all")
  then Some text else None.
Proof.
  unfold cups_options, start_printing_settings, collect_page_range; simpl.
  destruct (String.eqb var "custom"); simpl;
  [destruct (String.eqb text custom_range_placeholder); simpl|];
  [| destruct (String.eqb text "all") eqn:Ha; simpl |];
  destruct (String.eqb orient "landscape"), (String.eqb dup "long"),
    (String.eqb dup "short"); reflexivity.
Qed.

(** ** C1 *)

(** C1 (counterexample): the program has no page-range parser returning a
    sequence of pages. The valid expression "3,1" is sent to the spooler
    as the text "3,1", page 3 before page 1, not as the ascending [1; 3];
    "1-3,5" is sent as the text "1-3,5", not expanded to [1; 2; 3; 5]; and
    "all" yields no page-range value at all, whatever the page count. *)
Lemma C1_no_page_list :
  code_page_ranges "custom" "3,1" = Some "3,1" /\
  split_comma "3,1" = ["3"; "1"] /\
  code_page_ranges "custom" "1-3,5" = Some "1-3,5" /\
  code_page_ranges "all" "" = None.
Proof. repeat split; reflexivity. Qed.

(** C1 (amended): the page range is never parsed. [start_printing] keeps the
    custom entry text verbatim (or "all" for the All option or the
    untouched placeholder), and [do_print] sends that text unchanged as the
    [page-ranges] option, which is omitted exactly when the text is "all";
    the page count plays no part. *)
Theorem C1_page_range_forwarded_verbatim (var text orient dup : string) :
  dict_get (cups_options (start_printing_settings var text orient dup)) "page-ranges" =
  if String.eqb var "custom" && negb (String.eqb text custom_range_placeholder)
     && negb (String.eqb text "all")
  then Some text else None.
Proof. apply page_ranges_of_settings. Qed.

(** ** C2 *)

(** C2 (counterexample): a reversed range "3-2" and an out-of-range
    "1-10" on a five-page document are not rejected: [do_print] submits
    them to the spooler as the [page-ranges] option and, with a spooler
    that accepts the job and then drops it from its list, reaches the
    success screen without any error. *)
Lemma C2_invalid_ranges_submitted :
  let run text :=
    do_print (Some (accepting 1 [inr []]))
      (start_printing_settings "custom" text "portrait" "none") "/tmp/print_1_doc.pdf" in
  In (PrintFile PRINTER_NAME "/tmp/print_1_doc.pdf" "Print Job"
        [("page-ranges", "3-2"); ("orientation-requested", "3"); ("sides", "one-sided")])
     (run "3-2") /\
  reaches_success (run "3-2") = true /\ reaches_error (run "3-2") = false /\
  In (PrintFile PRINTER_NAME "/tmp/print_1_doc.pdf" "Print Job"
        [("page-ranges", "1-10"); ("orientation-requested", "3"); ("sides", "one-sided")])
     (run "1-10") /\
  reaches_success (run "1-10") = true /\ reaches_error (run "1-10") = false.
Proof. vm_compute. repeat split; auto 10. Qed.

(** C2 (amended): the program never rejects a page-range expression. Any
    custom text other than the placeholder and "all" (malformed,
    out of range or reversed included) is passed to the spooler's
    [printFile] call verbatim as the [page-ranges] option. *)
Theorem C2_custom_range_submitted (conn : spooler) (text orient dup file : string)
  (Hph : text <> custom_range_placeholder) (Hall : text <> "all") :
  exists options,
    In (PrintFile PRINTER_NAME file "Print Job" options)
       (do_print (Some conn) (start_printing_settings "custom" text orient dup) file) /\
    dict_get options "page-ranges" = Some text.
Proof.
  exists (cups_options (start_printing_settings "custom" text orient dup)). split.
  - unfold do_print. apply in_or_app. right. left. reflexivity.
  - rewrite page_ranges_of_settings. simpl.
    apply String.eqb_neq in Hph, Hall. rewrite Hph, Hall. reflexivity.
Qed.

Lemma C2_custom_range_submitted_witness :
  "3-2" <> custom_range_placeholder /\ "3-2" <> "all" /\
  exists options,
    In (PrintFile PRINTER_NAME "/tmp/print_1_doc.pdf" "Print Job" options)
       (do_print (Some (accepting 1 [inr []]))
          (start_printing_settings "custom" "3-2" "portrait" "none") "/tmp/print_1_doc.pdf") /\
    dict_get options "page-ranges" = Some "3-2".
Proof.
  split; [discriminate|]. split; [discriminate|].
  apply C2_custom_range_submitted; discriminate.
Defined.

(** ** C3 *)

(** C3 (failing input): two uploads of "report.pdf" received 0.5 s apart
    within the same second (time.time() = 1700000000.2 and 1700000000.7)
    both succeed and get the same stored path; the second overwrites the
    first, so one file with the second upload's contents remains. *)
Lemma C3_same_second_collision :
  let '(r1, k1) := receive_file (env_at 1700000000200) (upload "report.pdf" "first") kiosk_init in
  let '(r2, k2) := receive_file (env_at 1700000000700) (upload "report.pdf" "second") k1 in
  status r1 = 200 /\ status r2 = 200 /\
  k_current_file k1 = Some "/tmp/print_1700000000_report.pdf" /\
  k_current_file k2 = Some "/tmp/print_1700000000_report.pdf" /\
  k_fs k2 = [("/tmp/print_1700000000_report.pdf", "second")].
Proof. vm_compute. repeat split. Qed.

(** ** C4 *)

(** C4: a request with no part under the field "file", or whose file part
    has an empty filename, gets status 400 with [success = false], and the
    kiosk state is left as it was: no file written, the current file
    unchanged and no confirmation scheduled on the UI. *)
Theorem C4_invalid_upload_no_effect (e : req_env) (req : files) (k : kiosk)
  (Hbad : files_get req "file" = None \/
          exists f, files_get req "file" = Some f /\ fp_filename f = "") :
  status (fst (receive_file e req k)) = 400 /\
  success (fst (receive_file e req k)) = false /\
  snd (receive_file e req k) = k.
Proof.
  unfold receive_file.
  destruct Hbad as [Hnone | [f [Hf Hname]]].
  - rewrite Hnone. repeat split.
  - rewrite Hf, Hname. repeat split.
Qed.

Lemma C4_invalid_upload_no_effect_witness :
  (files_get [("image", {| fp_filename := "a.pdf"; fp_data := "x" |})] "file" = None \/
   exists f, files_get [("image", {| fp_filename := "a.pdf"; fp_data := "x" |})] "file" = Some f
             /\ fp_filename f = "") /\
  (files_get (upload "" "x") "file" = None \/
   exists f, files_get (upload "" "x") "file" = Some f /\ fp_filename f = "") /\
  (status (fst (receive_file (env_at 5000) [("image", {| fp_filename := "a.pdf"; fp_data := "x" |})]
                 kiosk_init)) = 400 /\
   success (fst (receive_file (env_at 5000) [("image", {| fp_filename := "a.pdf"; fp_data := "x" |})]
                  kiosk_init)) = false /\
   snd (receive_file (env_at 5000) [("image", {| fp_filename := "a.pdf"; fp_data := "x" |})]
          kiosk_init) = kiosk_init) /\
  (status (fst (receive_file (env_at 5000) (upload "" "x") kiosk_init)) = 400 /\
   success (fst (receive_file (env_at 5000) (upload "" "x") kiosk_init)) = false /\
   snd (receive_file (env_at 5000) (upload "" "x") kiosk_init) = kiosk_init).
Proof.
  split; [left; reflexivity|].
  split; [right; eexists; split; reflexivity|].
  split.
  - apply C4_invalid_upload_no_effect. left. reflexivity.
  - apply C4_invalid_upload_no_effect. right. eexists. split; reflexivity.
Defined.

(** ** C5 *)

(** C5 (failing input): the spooler reports the job as [aborted], neither
    [completed] nor [canceled], and then drops it from its list. The
    monitoring loop tests [job_state == 8] under the comment "Cancelled",
    but 8 is IPP's [aborted] (cancelled is 7): the loop raises "Print job
    cancelled" and the kiosk shows the error box and the Welcome screen,
    never the success screen. *)
Lemma C5_aborted_then_purged_not_completed :
  let tr := do_print (Some (accepting 1 [inr [(1, Ipp.aborted)]; inr []]))
              (start_printing_settings "all" "" "portrait" "none") "/tmp/print_1_doc.pdf" in
  Ipp.aborted <> Ipp.completed /\ Ipp.aborted <> Ipp.canceled /\
  reaches_success tr = false /\
  In (ShowError "Print Error" "Print job cancelled") tr /\ In ShowWelcome tr.
Proof. vm_compute. repeat split; try discriminate; auto 10. Qed.

(** ** C6 *)

(** C6: for the settings landscape, long-edge duplex and all pages, the
    options are exactly orientation code 4 and [two-sided-long-edge], with
    no [page-ranges] key; for every settings record the [page-ranges] key
    is absent exactly when the page range is "all". *)
Theorem C6_landscape_long_all_options :
  cups_options {| page_range := "all"; orientation := "landscape"; duplex := "long" |} =
    [("orientation-requested", "4"); ("sides", "two-sided-long-edge")] /\
  (forall s : print_settings,
     dict_get (cups_options s) "page-ranges" = None <-> page_range s = "all").
Proof.
  split; [reflexivity|].
  intros [pr o d]. unfold cups_options; simpl.
  destruct (String.eqb pr "all") eqn:Hpr; simpl.
  - apply String.eqb_eq in Hpr. subst pr.
    destruct (String.eqb o "landscape"), (String.eqb d "long"), (String.eqb d "short");
      simpl; split; reflexivity.
  - apply String.eqb_neq in Hpr.
    destruct (String.eqb o "landscape"), (String.eqb d "long"), (String.eqb d "short");
      simpl; split; intro H; congruence.
Qed.

(** ** C7 *)

(** C7 (failing input): the spooler reports the job as [canceled] (IPP
    job-state 7) and then drops it from its list. The loop only treats 8
    as cancelled, so it keeps polling, breaks when the job is gone and
    shows the success screen: no error is surfaced. *)
Lemma C7_canceled_reaches_success :
  let tr := do_print (Some (accepting 1 [inr [(1, Ipp.canceled)]; inr []]))
              (start_printing_settings "all" "" "portrait" "none") "/tmp/print_1_doc.pdf" in
  reaches_success tr = true /\ reaches_error tr = false /\ submissions tr = 1.
Proof. vm_compute. repeat split. Qed.

(** ** C8 *)

(** C8 (counterexample): after an upload of "a.pdf" is superseded by an
    upload of "b.pdf" and the kiosk shuts down, the first upload's stored
    file is still in the scratch area; only the second one is removed. *)
Lemma C8_superseded_file_kept :
  let k := receive_all [(env_at 1000200, upload "a.pdf" "first");
                        (env_at 5000700, upload "b.pdf" "second")] kiosk_init in
  k_current_file k = Some "/tmp/print_5000_b.pdf" /\
  fs_exists (k_fs k) "/tmp/print_1000_a.pdf" = true /\
  fs_exists (k_fs (cleanup k)) "/tmp/print_1000_a.pdf" = true /\
  fs_exists (k_fs (cleanup k)) "/tmp/print_5000_b.pdf" = false.
Proof. vm_compute. repeat split. Qed.

(** C8 (amended): the upload endpoint never deletes a stored file, so a
    superseded upload stays in the scratch area; the only deletion is
    [cleanup] at shutdown, which removes exactly the file named by the
    current file (the latest upload; a falsy empty name is skipped) and
    nothing else. *)
Theorem C8_only_current_file_removed :
  (forall (e : req_env) (req : files) (k : kiosk) (p : string),
     fs_exists (k_fs k) p = true ->
     fs_exists (k_fs (snd (receive_file e req k))) p = true) /\
  (forall (k : kiosk) (p : string),
     fs_exists (k_fs (cleanup k)) p =
     fs_exists (k_fs k) p && negb (match k_current_file k with
                                   | Some c => String.eqb p c && negb (String.eqb c "")
                                   | None => false
                                   end)).
Proof.
  split.
  - intros e req k p H. unfold receive_file.
    destruct (files_get req "file") as [f|]; [|exact H].
    destruct (String.eqb (fp_filename f) ""); [exact H|].
    destruct (save_error e); [exact H|].
    simpl. rewrite fs_exists_write, H. reflexivity.
  - intros k p. unfold cleanup.
    destruct (k_current_file k) as [c|]; [|rewrite Bool.andb_true_r; reflexivity].
    destruct (String.eqb c "") eqn:Hc; simpl.
    + rewrite Bool.andb_false_r, Bool.andb_true_r. reflexivity.
    + rewrite Bool.andb_true_r.
      destruct (fs_exists (k_fs k) c) eqn:Hx; simpl.
      * apply fs_exists_remove.
      * destruct (String.eqb p c) eqn:Hp; simpl.
        -- apply String.eqb_eq in Hp. subst p. rewrite Hx. reflexivity.
        -- rewrite Bool.andb_true_r. reflexivity.
Qed.

Lemma C8_only_current_file_removed_witness :
  fs_exists (k_fs (receive_all [(env_at 1000200, upload "a.pdf" "first")] kiosk_init))
     "/tmp/print_1000_a.pdf" = true /\
  fs_exists (k_fs (snd (receive_file (env_at 5000700) (upload "b.pdf" "second")
     (receive_all [(env_at 1000200, upload "a.pdf" "first")] kiosk_init))))
     "/tmp/print_1000_a.pdf" = true.
Proof.
  split; [vm_compute; reflexivity|].
  apply (proj1 C8_only_current_file_removed). vm_compute. reflexivity.
Defined.

(** ** C9 *)

Lemma preview_step_index_ok (o : preview_op) (p : preview) :
  nonempty_doc o -> page_index_ok p -> page_index_ok (preview_step o p).
Proof.
  unfold page_index_ok.
  destruct o as [[n|]| |]; simpl; intros Ho [Hlen Hcp].
  - split; simpl; lia.
  - split; assumption.
  - unfold prev_page. destruct (0 <? current_page p)%Z eqn:H; simpl.
    + apply Z.ltb_lt in H. split; [assumption|lia].
    + split; assumption.
  - unfold next_page. destruct (current_page p <? Z.of_nat (preview_len p) - 1)%Z eqn:H; simpl.
    + apply Z.ltb_lt in H. split; [assumption|lia].
    + split; assumption.
Qed.

(** C9: once [show_preview] has loaded a document of [n >= 1] pages, the
    page index is 0, and any later run of previous-page, next-page and
    reloads of documents with at least one page keeps it within
    [0, page count - 1]. *)
Theorem C9_page_index_bounded (n : nat) (p : preview) (os : list preview_op)
  (Hn : 1 <= n) (Hdocs : Forall nonempty_doc os) :
  current_page (show_preview (Some n) p) = 0%Z /\
  page_index_ok (preview_run os (show_preview (Some n) p)).
Proof.
  split; [reflexivity|].
  assert (H0 : page_index_ok (show_preview (Some n) p)).
  { unfold page_index_ok; simpl; split; lia. }
  revert H0. generalize (show_preview (Some n) p). clear p.
  induction Hdocs as [|o os Ho Hos IH]; intros p Hp; simpl.
  - exact Hp.
  - apply IH. apply preview_step_index_ok; assumption.
Qed.

Lemma C9_page_index_bounded_witness :
  1 <= 3 /\ Forall nonempty_doc [OpNext; OpNext; OpNext; OpPrev; OpShowPreview (Some 2); OpNext] /\
  current_page (show_preview (Some 3) {| preview_len := 0; current_page := 0 |}) = 0%Z /\
  page_index_ok (preview_run [OpNext; OpNext; OpNext; OpPrev; OpShowPreview (Some 2); OpNext]
                   (show_preview (Some 3) {| preview_len := 0; current_page := 0 |})).
Proof.
  assert (Hd : Forall nonempty_doc
                 [OpNext; OpNext; OpNext; OpPrev; OpShowPreview (Some 2); OpNext]).
  { repeat constructor; simpl; lia. }
  split; [lia|]. split; [exact Hd|].
  apply C9_page_index_bounded; [lia | exact Hd].
Defined.

(** ** C10 *)

(** C10: with the Custom option selected and the entry still holding the
    placeholder "e.g. 1-3,5", the collected page range is "all" and no
    [page-ranges] option reaches the spooler. *)
Theorem C10_placeholder_means_all (orient dup : string) :
  page_range (start_printing_settings "custom" custom_range_placeholder orient dup) = "all" /\
  dict_get (cups_options (start_printing_settings "custom" custom_range_placeholder orient dup))
    "page-ranges" = None.
Proof.
  split; [reflexivity|].
  rewrite page_ranges_of_settings. reflexivity.
Qed.

(* ================================================================== *)
(** * Further properties of the code *)

(** ** [do_print] *)

(** [do_print] calls [printFile] at most once: a failed submission or a
    failed poll is never retried. *)
Theorem do_print_submits_at_most_once (conn : option spooler) (s : print_settings)
  (file : string) :
  submissions (do_print conn s file) <= 1.
Proof.
  unfold do_print, submissions.
  destruct conn as [c|]; simpl; [|lia].
  destruct (sp_print_file c PRINTER_NAME file "Print Job" (cups_options s)); simpl; [lia|].
  destruct (monitor n (sp_get_jobs c)); simpl; lia.
Qed.

(** A run of [do_print] never shows both the success screen and the error
    box, and when it shows the error box its last effect is the return to
    the Welcome screen. *)
Theorem do_print_error_xor_success (conn : option spooler) (s : print_settings)
  (file : string) :
  let tr := do_print conn s file in
  reaches_success tr && reaches_error tr = false /\
  (reaches_error tr = true -> last tr ShowSuccess = ShowWelcome).
Proof.
  unfold do_print, reaches_success, reaches_error.
  destruct conn as [c|]; simpl; [|split; reflexivity].
  destruct (sp_print_file c PRINTER_NAME file "Print Job" (cups_options s)); simpl;
    [split; reflexivity|].
  destruct (monitor n (sp_get_jobs c)); simpl; split; try reflexivity; discriminate.
Qed.



(** A [getJobs] answer that still lists the job in a state other than 8 and
    9. *)
Definition still_active (job_id : nat) (a : string + jobs) : Prop :=
  exists js st, a = inr js /\ jobs_get js job_id = Some st /\ st <> 8 /\ st <> 9.

(** The loop has no timeout: as long as the spooler keeps listing the job in
    a state other than 8 and 9, [do_print] keeps polling and never reaches
    the success or error screen. *)
Theorem monitor_no_timeout (job_id : nat) (ps : list (string + jobs))
  (Hactive : Forall (still_active job_id) ps) :
  monitor job_id ps = LoopRunning.
Proof.
  induction Hactive as [|a ps [js [st [-> [Hst [H8 H9]]]]] _ IH]; simpl.
  - reflexivity.
  - rewrite Hst.
    apply Nat.eqb_neq in H8, H9. rewrite H9, H8. exact IH.
Qed.

Lemma monitor_no_timeout_witness :
  Forall (still_active 1) [inr [(1, 3)]; inr [(2, 9); (1, 5)]; inr [(1, 7)]] /\
  monitor 1 [inr [(1, 3)]; inr [(2, 9); (1, 5)]; inr [(1, 7)]] = LoopRunning.
Proof.
  assert (H : Forall (still_active 1) [inr [(1, 3)]; inr [(2, 9); (1, 5)]; inr [(1, 7)]]).
  { repeat constructor;
      [exists [(1, 3)], 3 | exists [(2, 9); (1, 5)], 5 | exists [(1, 7)], 7];
      repeat split; discriminate. }
  split; [exact H|]. apply monitor_no_timeout. exact H.
Defined.


(** ** Preview navigation *)

(** Next then Previous, or Previous then Next, come back to the same page
    whenever the first button actually moved (from a non-negative index). *)
Theorem prev_next_roundtrip (p : preview) :
  ((0 <= current_page p < Z.of_nat (preview_len p) - 1)%Z -> prev_page (next_page p) = p) /\
  ((0 < current_page p <= Z.of_nat (preview_len p) - 1)%Z -> next_page (prev_page p) = p).
Proof.
  destruct p as [len cp]. unfold prev_page, next_page; simpl. split; intro H.
  - destruct (cp <? Z.of_nat len - 1)%Z eqn:H1; [|apply Z.ltb_ge in H1; lia].
    simpl. destruct (0 <? cp + 1)%Z eqn:H2; [|apply Z.ltb_ge in H2; lia].
    simpl. f_equal. lia.
  - destruct (0 <? cp)%Z eqn:H1; [|apply Z.ltb_ge in H1; lia].
    simpl. destruct (cp - 1 <? Z.of_nat len - 1)%Z eqn:H2.
    + simpl. f_equal. lia.
    + apply Z.ltb_ge in H2. lia.
Qed.

Lemma prev_next_roundtrip_witness :
  ((0 <= 1 < Z.of_nat 4 - 1)%Z /\ prev_page (next_page {| preview_len := 4; current_page := 1 |}) =
                              {| preview_len := 4; current_page := 1 |}) /\
  ((0 < 3 <= Z.of_nat 4 - 1)%Z /\ next_page (prev_page {| preview_len := 4; current_page := 3 |}) =
                {| preview_len := 4; current_page := 3 |}).
Proof.
  split; split; try (simpl; lia).
  - apply (proj1 (prev_next_roundtrip {| preview_len := 4; current_page := 1 |})). simpl. lia.
  - apply (proj2 (prev_next_roundtrip {| preview_len := 4; current_page := 3 |})). simpl. lia.
Defined.

(** With the index within the page count, [update_preview] draws the image
    at the current index (no [IndexError]), and its Previous and Next
    buttons are enabled exactly when [prev_page] and [next_page] would move
    the index. *)
Theorem update_preview_consistent (p : preview) (Hok : page_index_ok p) :
  match update_preview p with
  | Shown i _ prev_on next_on =>
      i = Z.to_nat (current_page p) /\
      (prev_on = true <-> prev_page p <> p) /\
      (next_on = true <-> next_page p <> p)
  | _ => False
  end.
Proof.
  destruct p as [len cp]. unfold page_index_ok in Hok; simpl in Hok. destruct Hok as [Hlen Hcp].
  unfold update_preview, py_index, prev_page, next_page; simpl.
  destruct (Nat.eqb len 0) eqn:H0; [apply Nat.eqb_eq in H0; lia|].
  destruct ((0 <=? cp)%Z && (cp <? Z.of_nat len)%Z) eqn:Hin;
    [|apply andb_false_iff in Hin; destruct Hin as [Hin|Hin];
      [apply Z.leb_gt in Hin | apply Z.ltb_ge in Hin]; lia].
  split; [reflexivity|]. split.
  - destruct (0 <? cp)%Z; split; intro H; try discriminate; try reflexivity.
    + intro E. injection E. lia.
    + exfalso. apply H. reflexivity.
  - destruct (cp <? Z.of_nat len - 1)%Z; split; intro H; try discriminate; try reflexivity.
    + intro E. injection E. lia.
    + exfalso. apply H. reflexivity.
Qed.

Lemma update_preview_consistent_witness :
  page_index_ok {| preview_len := 3; current_page := 2 |} /\
  update_preview {| preview_len := 3; current_page := 2 |} = Shown 2 "Page 3 of 3" true false /\
  (2 = Z.to_nat 2 /\
   (true = true <-> prev_page {| preview_len := 3; current_page := 2 |} <>
                    {| preview_len := 3; current_page := 2 |}) /\
   (false = true <-> next_page {| preview_len := 3; current_page := 2 |} <>
                     {| preview_len := 3; current_page := 2 |})).
Proof.
  assert (Hok : page_index_ok {| preview_len := 3; current_page := 2 |}).
  { unfold page_index_ok; simpl; lia. }
  split; [exact Hok|]. split; [reflexivity|].
  exact (update_preview_consistent {| preview_len := 3; current_page := 2 |} Hok).
Defined.

(** ** [receive_file] and [cleanup] *)

Lemma fs_read_write (fs : fsys) (p d q : string) :
  fs_read (fs_write fs p d) q = if String.eqb q p then Some d else fs_read fs q.
Proof.
  unfold fs_read. induction fs as [|[p' d'] t IH]; simpl.
  - rewrite (String.eqb_sym p q). destruct (String.eqb q p); reflexivity.
  - destruct (String.eqb p p') eqn:Hp; simpl.
    + apply String.eqb_eq in Hp. subst p'.
      rewrite (String.eqb_sym p q). destruct (String.eqb q p); reflexivity.
    + destruct (String.eqb p' q) eqn:Hq; simpl.
      * apply String.eqb_eq in Hq. subst p'.
        rewrite String.eqb_sym, Hp. reflexivity.
      * exact IH.
Qed.

Lemma string_app_assoc (a b c : string) : (a ++ b) ++ c = a ++ (b ++ c).
Proof. induction a as [|ch a IH]; simpl; [reflexivity|]. rewrite IH. reflexivity. Qed.

Lemma string_app_cancel_l (pre a b : string) : pre ++ a = pre ++ b -> a = b.
Proof.
  induction pre as [|ch pre IH]; simpl; intro H; [exact H|].
  injection H. exact IH.
Qed.

Lemma path_join_prefix (a : string) : exists pre, forall b, path_join a b = pre ++ b.
Proof.
  unfold path_join. destruct (String.eqb a ""); [exists ""; reflexivity|].
  destruct (ends_with_slash a); [exists a; reflexivity|].
  exists (a ++ "/"). intro b. rewrite string_app_assoc. reflexivity.
Qed.

(** A valid upload is stored: the response is 200 with the original
    filename, the current file becomes the stored path, reading that path
    gives back the uploaded bytes, every other path reads as before, and
    exactly one confirmation carrying the filename and the byte size is
    scheduled on the UI. *)
Theorem receive_file_stores_upload (e : req_env) (req : files) (k : kiosk) (f : file_part)
  (Hf : files_get req "file" = Some f) (Hname : fp_filename f <> "")
  (Hsave : save_error e = None) :
  let '(r, k') := receive_file e req k in
  status r = 200 /\ success r = true /\ body r = fp_filename f /\
  k_current_file k' = Some (stored_path e (fp_filename f)) /\
  fs_read (k_fs k') (stored_path e (fp_filename f)) = Some (fp_data f) /\
  (forall q, q <> stored_path e (fp_filename f) -> fs_read (k_fs k') q = fs_read (k_fs k) q) /\
  k_after k' = (k_after k ++ [ShowFileConfirmation (fp_filename f) (String.length (fp_data f))])%list.
Proof.
  unfold receive_file. rewrite Hf.
  apply String.eqb_neq in Hname. rewrite Hname, Hsave. simpl.
  repeat split.
  - rewrite fs_read_write, String.eqb_refl. reflexivity.
  - intros q Hq. rewrite fs_read_write.
    apply String.eqb_neq in Hq. rewrite Hq. reflexivity.
Qed.

Lemma receive_file_stores_upload_witness :
  files_get (upload "a.pdf" "data") "file" = Some {| fp_filename := "a.pdf"; fp_data := "data" |} /\
  fp_filename {| fp_filename := "a.pdf"; fp_data := "data" |} <> "" /\
  save_error (env_at 1000200) = None /\
  fs_read (k_fs (snd (receive_file (env_at 1000200) (upload "a.pdf" "data") kiosk_init)))
    "/tmp/print_1000_a.pdf" = Some "data".
Proof.
  split; [reflexivity|]. split; [discriminate|]. split; [reflexivity|].
  pose proof (receive_file_stores_upload (env_at 1000200) (upload "a.pdf" "data") kiosk_init
                {| fp_filename := "a.pdf"; fp_data := "data" |} eq_refl
                ltac:(discriminate) eq_refl) as H.
  destruct (receive_file (env_at 1000200) (upload "a.pdf" "data") kiosk_init) as [r k'].
  destruct H as [_ [_ [_ [_ [H _]]]]]. exact H.
Defined.

(** Uploads in the same second never collide when their filenames differ:
    the timestamp prefix is shared and the filename is the distinguishing
    suffix. *)
Theorem stored_path_distinct_names (e1 e2 : req_env) (n1 n2 : string)
  (Hdir : temp_dir e1 = temp_dir e2)
  (Hsec : N.div (now_ms e1) 1000 = N.div (now_ms e2) 1000)
  (Hn : n1 <> n2) :
  stored_path e1 n1 <> stored_path e2 n2.
Proof.
  unfold stored_path. rewrite Hdir, Hsec.
  destruct (path_join_prefix (temp_dir e2)) as [pre Hpre].
  rewrite !Hpre. intro H.
  apply string_app_cancel_l in H.
  rewrite <- !string_app_assoc in H.
  apply string_app_cancel_l in H. exact (Hn H).
Qed.

Lemma stored_path_distinct_names_witness :
  N.div (now_ms (env_at 1700000000200)) 1000 = N.div (now_ms (env_at 1700000000700)) 1000 /\
  stored_path (env_at 1700000000200) "a.pdf" <> stored_path (env_at 1700000000700) "b.pdf".
Proof.
  split; [vm_compute; reflexivity|].
  apply stored_path_distinct_names; [reflexivity | vm_compute; reflexivity | discriminate].
Defined.

(** After [cleanup] the current file no longer exists, and a second
    [cleanup] (a second close of the window) removes nothing more. *)
Theorem cleanup_removes_current (k : kiosk) (c : string)
  (Hcur : k_current_file k = Some c) (Hc : c <> "") :
  fs_exists (k_fs (cleanup k)) c = false /\
  k_fs (cleanup (cleanup k)) = k_fs (cleanup k).
Proof.
  assert (Hrm : fs_exists (k_fs (cleanup k)) c = false).
  { unfold cleanup. rewrite Hcur.
    apply String.eqb_neq in Hc. rewrite Hc. simpl.
    destruct (fs_exists (k_fs k) c) eqn:Hx; simpl.
    - rewrite fs_exists_remove, String.eqb_refl, Bool.andb_false_r. reflexivity.
    - exact Hx. }
  split; [exact Hrm|].
  assert (Hcur' : k_current_file (cleanup k) = Some c).
  { unfold cleanup. rewrite Hcur.
    destruct (negb (String.eqb c "") && fs_exists (k_fs k) c); simpl; [reflexivity|exact Hcur]. }
  unfold cleanup at 1. rewrite Hcur', Hrm, Bool.andb_false_r. reflexivity.
Qed.

Lemma cleanup_removes_current_witness :
  k_current_file (receive_all [(env_at 1000200, upload "a.pdf" "x")] kiosk_init) =
    Some "/tmp/print_1000_a.pdf" /\
  fs_exists (k_fs (cleanup (receive_all [(env_at 1000200, upload "a.pdf" "x")] kiosk_init)))
    "/tmp/print_1000_a.pdf" = false.
Proof.
  split; [vm_compute; reflexivity|].
  apply (cleanup_removes_current _ "/tmp/print_1000_a.pdf"); [vm_compute; reflexivity|discriminate].
Defined.

(** ** Easter eggs *)







(** Ten clicks on the title trigger party mode: from a fresh count, [n]
    clicks trigger it [n / 10] times and leave the count at [n mod 10]. *)
Theorem secret_clicks_every_tenth (n : nat) :
  clicks_run n 0 = (n mod 10, n / 10).
Proof.
  assert (H : forall m c, c < 10 -> clicks_run m c = ((c + m) mod 10, (c + m) / 10)).
  { induction m as [|m IH]; intros c Hc.
    - cbn [clicks_run]. rewrite Nat.add_0_r, Nat.mod_small, Nat.div_small by lia. reflexivity.
    - cbn [clicks_run]. unfold secret_click.
      destruct (Nat.leb 10 (S c)) eqn:Hle.
      + apply Nat.leb_le in Hle. assert (c = 9) by lia. subst c.
        rewrite (IH 0) by lia. cbv beta iota zeta. rewrite Nat.add_0_l.
        replace (9 + S m) with (m + 1 * 10) by lia.
        rewrite Nat.Div0.mod_add, Nat.div_add by lia. f_equal. lia.
      + apply Nat.leb_gt in Hle.
        rewrite (IH (S c)) by lia. cbv beta iota zeta.
        replace (S c + m) with (c + S m) by lia. reflexivity. }
  apply H. lia.
Qed.

(** ** The success countdown *)

Definition countdown_label (i : nat) : tick :=
  TickAgain ("Returning to home in " ++ str_of_N (N.of_nat i) ++ " seconds...").

(** On the success screen, a countdown from [c] reschedules itself [c]
    times with the labels [c-1], ..., 0 and then returns to the Welcome
    screen; if the screen has changed, the chain stops at its next call
    without going to Welcome. *)
Theorem countdown_runs_down (c fuel : nat) (s : countdown_state)
  (Hoff : current_screen s <> "success") :
  countdown_chain (S c) {| current_screen := "success"; countdown := c |} =
    ({| current_screen := "welcome"; countdown := 0 |},
     (map countdown_label (rev (seq 0 c)) ++ [TickWelcome])%list) /\
  countdown_chain (S fuel) s = (s, [TickStop]).
Proof.
  split.
  - induction c as [|c IH]; [reflexivity|].
    change (countdown_chain (S (S c)) {| current_screen := "success"; countdown := S c |})
      with (let '(s'', ts) := countdown_chain (S c)
                                {| current_screen := "success"; countdown := c |} in
            (s'', countdown_label c :: ts)).
    rewrite IH. rewrite seq_S, rev_app_distr. reflexivity.
  - simpl. unfold do_countdown.
    apply String.eqb_neq in Hoff. rewrite Hoff. reflexivity.
Qed.

Lemma countdown_runs_down_witness :
  current_screen {| current_screen := "preview"; countdown := 3 |} <> "success" /\
  countdown_chain 6 show_success_countdown =
    ({| current_screen := "welcome"; countdown := 0 |},
     (map countdown_label [4; 3; 2; 1; 0] ++ [TickWelcome])%list) /\
  countdown_chain 1 {| current_screen := "preview"; countdown := 3 |} =
    ({| current_screen := "preview"; countdown := 3 |}, [TickStop]).
Proof.
  split; [discriminate|].
  apply (countdown_runs_down 5 0); discriminate.
Defined.
